(** * The OpenAI model-descriptor normalizer of big-AGI

    A shallow embedding of [knownBases] and [openAIModelToDLLM] from
    [src/modules/llms/openai/OpenAISourceSetup.tsx], together with the
    ECMAScript built-ins the function calls, and the properties the
    specification states about it. *)

From Stdlib Require Import List Bool NArith ZArith QArith Qround Ascii String Lia.
Import ListNotations.

Local Open Scope Z_scope.

(* ================================================================== *)
(** ** JavaScript values used by the function *)

(** A JavaScript string is a finite sequence of UTF-16 code units. *)
Definition codeunit := N.
Definition jsstring := list codeunit.

(** String literals of the source, written with ASCII characters only. *)
Definition js (s : string) : jsstring :=
  map N_of_ascii (list_ascii_of_string s).

(** Property accesses on [undefined] abort the function with a [TypeError]. *)
Inductive exn := TypeError.

Inductive completion (A : Type) : Type :=
| Normal (v : A)
| Throw (e : exn).
Arguments Normal {A} v.
Arguments Throw {A} e.

Module JS.

(** [s.length] *)
Definition length (s : jsstring) : Z := Z.of_nat (List.length s).

(** ToBoolean on a string: only the empty string is falsy. *)
Definition truthy (s : jsstring) : bool :=
  match s with
  | [] => false
  | _ :: _ => true
  end.

(** WhiteSpace and LineTerminator code points, the ones [trim] strips:
    TAB, LF, VT, FF, CR, SP, NBSP, the space separators of Unicode
    (U+1680, U+2000..U+200A, U+202F, U+205F, U+3000), LS, PS and the
    byte order mark. *)
Definition isWhiteSpace (u : codeunit) : bool :=
  ((9 <=? u) && (u <=? 13) || (u =? 32) || (u =? 160) || (u =? 5760)
   || (8192 <=? u) && (u <=? 8202) || (u =? 8232) || (u =? 8233)
   || (u =? 8239) || (u =? 8287) || (u =? 12288) || (u =? 65279))%N.

Fixpoint trimStart (s : jsstring) : jsstring :=
  match s with
  | [] => []
  | u :: rest => if isWhiteSpace u then trimStart rest else s
  end.

Definition trimEnd (s : jsstring) : jsstring :=
  rev (trimStart (rev s)).

(** [s.trim()] *)
Definition trim (s : jsstring) : jsstring :=
  trimEnd (trimStart s).

(** [s.startsWith(p)] *)
Fixpoint startsWith (s p : jsstring) : bool :=
  match p, s with
  | [], _ => true
  | _ :: _, [] => false
  | a :: p', b :: s' => (b =? a)%N && startsWith s' p'
  end.

(** [s.slice(start)]: a negative [start] counts from the end, and the
    start position is clamped to the string. *)
Definition slice (s : jsstring) (start : Z) : jsstring :=
  let len := length s in
  let from := if start <? 0 then Z.max (len + start) 0 else Z.min start len in
  skipn (Z.to_nat from) s.

(** [s.replaceAll(pat, rep)] for a string pattern: the occurrences of
    [pat] are found left to right without overlap; [skip] counts the
    code units of the current occurrence still to be passed over.  The
    empty pattern matches before every code unit and at the end. *)
Fixpoint replaceAll_from (pat rep s : jsstring) (skip : nat) : jsstring :=
  match s with
  | [] =>
      match skip, pat with
      | O, [] => rep
      | _, _ => []
      end
  | u :: rest =>
      match skip with
      | S k => replaceAll_from pat rep rest k
      | O =>
          if startsWith s pat then
            match pat with
            | [] => rep ++ u :: replaceAll_from pat rep rest 0
            | _ :: pat' => rep ++ replaceAll_from pat rep rest (List.length pat')
            end
          else u :: replaceAll_from pat rep rest 0
      end
  end.

Definition replaceAll (s pat rep : jsstring) : jsstring :=
  replaceAll_from pat rep s 0.

(** [a[i]]: [undefined] outside the array. *)
Definition Array_get {A : Type} (a : list A) (i : Z) : option A :=
  if i <? 0 then None else nth_error a (Z.to_nat i).

(** [a.find(p)]: the first element satisfying [p], or [undefined]. *)
Definition Array_find {A : Type} (p : A -> bool) (a : list A) : option A :=
  List.find p a.

(** [x || y] where [x] is an object or [undefined]. *)
Definition or {A : Type} (x y : option A) : option A :=
  match x with
  | Some v => Some v
  | None => y
  end.

(** [Math.round(x)]: the nearest integer, halves going up. *)
Definition Math_round (x : Q) : Z := Qfloor (x + (1 # 2))%Q.

End JS.

(* ================================================================== *)
(** ** Data model *)

(** An entry of [knownBases]. *)
Module KnownBase.
Record t := mk {
  id : jsstring;
  label : jsstring;
  context : Z;
  description : jsstring;
}.
End KnownBase.

(** [OpenAI.Wire.Models.ModelDescription]: the function reads [id] and
    [created]; whatever else the provider reports is kept in [other]. *)
Module ModelDescription.
Record t {Other : Type} := mk {
  id : jsstring;
  created : Z;
  other : Other;
}.
Arguments t : clear implicits.
End ModelDescription.

(** [DModelSource]: the function reads [id]; the vendor, the label and the
    setup of the source are kept in [setup]. *)
Module DModelSource.
Record t {Setup : Type} := mk {
  id : jsstring;
  setup : Setup;
}.
Arguments t : clear implicits.
End DModelSource.

Module LLMOptionsOpenAI.
Record t := mk {
  llmRef : jsstring;
  llmTemperature : Q;
  llmResponseTokens : Z;
}.
End LLMOptionsOpenAI.

(** [DLLM & { options: LLMOptionsOpenAI }] *)
Module DLLM.
Record t {Setup : Type} := mk {
  id : jsstring;
  label : jsstring;
  created : Z;
  description : jsstring;
  tags : list jsstring;
  contextTokens : Z;
  hidden : bool;
  sId : jsstring;
  _source : DModelSource.t Setup;
  options : LLMOptionsOpenAI.t;
}.
Arguments t : clear implicits.
End DLLM.

(* ================================================================== *)
(** ** The table and the function *)

Definition knownBases : list KnownBase.t :=
  [ KnownBase.mk (js "gpt-4-32k") (js "GPT-4-32") 32768
      (js "Largest context window for big thinking");
    KnownBase.mk (js "gpt-4") (js "GPT-4") 8192
      (js "Insightful, big thinker, slower, pricey");
    KnownBase.mk (js "gpt-3.5-turbo") (js "3.5-Turbo") 4097
      (js "Fair speed and smarts");
    KnownBase.mk (js "") (js "?:") 4096
      (js "Unknown, please let us know the ID") ].

(** The scan of the first statement: [bases.find(base => id.startsWith(base.id))]. *)
Definition find_base (bases : list KnownBase.t) (id : jsstring) : option KnownBase.t :=
  JS.Array_find (fun base => JS.startsWith id (KnownBase.id base)) bases.

(** The whole first statement, with its [|| bases[bases.length - 1]]. *)
Definition select_base (bases : list KnownBase.t) (id : jsstring) : option KnownBase.t :=
  JS.or (find_base bases id) (JS.Array_get bases (Z.of_nat (List.length bases) - 1)).

(** The second statement: [model.id.slice(base.id.length).trim()]. *)
Definition suffix_of (base : KnownBase.t) (id : jsstring) : jsstring :=
  JS.trim (JS.slice id (JS.length (KnownBase.id base))).

(** [openAIModelToDLLM] over an arbitrary table; reading [base.id] of an
    [undefined] base throws. *)
Definition openAIModelToDLLM_with {Other Setup : Type} (bases : list KnownBase.t)
    (model : ModelDescription.t Other) (source : DModelSource.t Setup)
  : completion (DLLM.t Setup) :=
  match select_base bases (ModelDescription.id model) with
  | None => Throw TypeError
  | Some base =>
      let suffix := suffix_of base (ModelDescription.id model) in
      Normal {|
        DLLM.id := DModelSource.id source ++ js "-" ++ ModelDescription.id model;
        DLLM.label :=
          KnownBase.label base ++
          (if JS.truthy suffix
           then js " (" ++ JS.trim (JS.replaceAll suffix (js "-") (js " ")) ++ js ")"
           else js "");
        DLLM.created := ModelDescription.created model;
        DLLM.description := KnownBase.description base;
        DLLM.tags := [js "stream"; js "chat"];
        DLLM.contextTokens := KnownBase.context base;
        DLLM.hidden := negb (negb (JS.truthy suffix));
        DLLM.sId := DModelSource.id source;
        DLLM._source := source;
        DLLM.options := {|
          LLMOptionsOpenAI.llmRef := ModelDescription.id model;
          LLMOptionsOpenAI.llmTemperature := 1 # 2;
          LLMOptionsOpenAI.llmResponseTokens :=
            JS.Math_round (inject_Z (KnownBase.context base) / 8)%Q;
        |};
      |}
  end.

(** [openAIModelToDLLM], over the compiled-in table. *)
Definition openAIModelToDLLM {Other Setup : Type}
    (model : ModelDescription.t Other) (source : DModelSource.t Setup)
  : completion (DLLM.t Setup) :=
  openAIModelToDLLM_with knownBases model source.

(** A descriptor and a source without further fields, for examples. *)
Definition model_of (id : jsstring) (created : Z) : ModelDescription.t unit :=
  ModelDescription.mk unit id created tt.

Definition source_of (id : jsstring) : DModelSource.t unit :=
  DModelSource.mk unit id tt.

(* ================================================================== *)
(** ** Facts about the built-ins *)

Section BuiltIns.

Lemma js_app (a b : string) : js (a ++ b) = js a ++ js b.
Proof.
  unfold js. induction a as [|c a IH]; simpl; [reflexivity|].
  f_equal. exact IH.
Qed.

Lemma startsWith_nil (s : jsstring) : JS.startsWith s [] = true.
Proof. destruct s; reflexivity. Qed.

(** [startsWith] decides literal prefixes. *)
Lemma startsWith_spec (s p : jsstring) :
  JS.startsWith s p = true <-> exists t, s = p ++ t.
Proof.
  revert s. induction p as [|a p IH]; intros s.
  - rewrite startsWith_nil. split; [exists s; reflexivity | reflexivity].
  - destruct s as [|b s]; simpl.
    + split; [discriminate | intros [t Ht]; discriminate].
    + rewrite andb_true_iff, N.eqb_eq, IH. split.
      * intros [-> [t ->]]. exists t. reflexivity.
      * intros [t Ht]. injection Ht as -> ->. split; [reflexivity | exists t; reflexivity].
Qed.

Lemma startsWith_false (s p : jsstring) :
  JS.startsWith s p = false <-> ~ exists t, s = p ++ t.
Proof.
  rewrite <- startsWith_spec. destruct (JS.startsWith s p); split; intros H.
  - discriminate.
  - exfalso. apply H. reflexivity.
  - discriminate.
  - reflexivity.
Qed.

Lemma slice_0 (s : jsstring) : JS.slice s 0 = s.
Proof.
  unfold JS.slice, JS.length. simpl.
  replace (Z.to_nat (Z.min 0 (Z.of_nat (List.length s)))) with 0%nat by lia.
  reflexivity.
Qed.

(** Slicing at the length of a prefix leaves what follows the prefix. *)
Lemma slice_prefix (p t : jsstring) : JS.slice (p ++ t) (JS.length p) = t.
Proof.
  unfold JS.slice, JS.length.
  destruct (Z.ltb_spec (Z.of_nat (List.length p)) 0) as [H|_]; [lia|].
  rewrite length_app.
  replace (Z.to_nat _) with (List.length p) by lia.
  rewrite skipn_app, skipn_all, Nat.sub_diag. reflexivity.
Qed.

Lemma replaceAll_from_unit (c d : codeunit) (s : jsstring) :
  JS.replaceAll_from [c] [d] s 0 = map (fun u => if (u =? c)%N then d else u) s.
Proof.
  induction s as [|u s IH]; [reflexivity|].
  cbn [JS.replaceAll_from JS.startsWith map List.length].
  rewrite startsWith_nil, andb_true_r.
  destruct (u =? c)%N; simpl; rewrite IH; reflexivity.
Qed.

(** Replacing a one-unit pattern by one unit is a code-unit-wise map. *)
Lemma replaceAll_unit (c d : codeunit) (s : jsstring) :
  JS.replaceAll s [c] [d] = map (fun u => if (u =? c)%N then d else u) s.
Proof. apply replaceAll_from_unit. Qed.

Lemma trimStart_split (s : jsstring) :
  exists l, s = l ++ JS.trimStart s /\ forallb JS.isWhiteSpace l = true.
Proof.
  induction s as [|u s [l [E W]]]; [exists []; split; reflexivity|].
  simpl. destruct (JS.isWhiteSpace u) eqn:Hu.
  - exists (u :: l). simpl. rewrite Hu, W. split; [f_equal; exact E | reflexivity].
  - exists []. split; reflexivity.
Qed.

Lemma trimStart_head (s : jsstring) :
  match JS.trimStart s with
  | [] => True
  | u :: _ => JS.isWhiteSpace u = false
  end.
Proof.
  induction s as [|u s IH]; simpl; [exact I|].
  destruct (JS.isWhiteSpace u) eqn:Hu; [exact IH | exact Hu].
Qed.

Lemma trimStart_idem (s : jsstring) : JS.trimStart (JS.trimStart s) = JS.trimStart s.
Proof.
  pose proof (trimStart_head s) as H.
  destruct (JS.trimStart s) as [|u r]; [reflexivity|].
  simpl. rewrite H. reflexivity.
Qed.

Lemma forallb_rev {A} (f : A -> bool) (l : list A) :
  forallb f (rev l) = forallb f l.
Proof.
  induction l as [|a l IH]; [reflexivity|].
  simpl. rewrite forallb_app, IH. simpl. rewrite andb_true_r. apply andb_comm.
Qed.

Lemma trimEnd_split (s : jsstring) :
  exists r, s = JS.trimEnd s ++ r /\ forallb JS.isWhiteSpace r = true.
Proof.
  unfold JS.trimEnd. destruct (trimStart_split (rev s)) as [l [E W]].
  exists (rev l). split.
  - rewrite <- rev_app_distr, <- E, rev_involutive. reflexivity.
  - rewrite forallb_rev. exact W.
Qed.

(** [trim] removes a run of white space at each end, and nothing else. *)
Lemma trim_split (s : jsstring) :
  exists l r, s = l ++ JS.trim s ++ r
              /\ forallb JS.isWhiteSpace l = true
              /\ forallb JS.isWhiteSpace r = true.
Proof.
  unfold JS.trim.
  destruct (trimStart_split s) as [l [El Wl]].
  destruct (trimEnd_split (JS.trimStart s)) as [r [Er Wr]].
  exists l, r. split; [|split; assumption].
  rewrite <- Er. exact El.
Qed.

(** A trimmed string neither starts nor ends with white space. *)
Lemma trim_ends (s : jsstring) :
  JS.trimStart (JS.trim s) = JS.trim s /\ JS.trimEnd (JS.trim s) = JS.trim s.
Proof.
  unfold JS.trim. split.
  - unfold JS.trimEnd.
    remember (JS.trimStart s) as t eqn:Et.
    pose proof (trimStart_head s) as Hh. rewrite <- Et in Hh.
    destruct (trimStart_split (rev t)) as [l [E W]].
    remember (JS.trimStart (rev t)) as w eqn:Ew.
    assert (Ht : t = rev w ++ rev l).
    { rewrite <- rev_app_distr, <- E, rev_involutive. reflexivity. }
    destruct (rev w) as [|x xs] eqn:Hw; [reflexivity|].
    rewrite Ht in Hh. simpl in Hh. simpl. rewrite Hh. reflexivity.
  - unfold JS.trimEnd. rewrite rev_involutive, trimStart_idem. reflexivity.
Qed.

Lemma trim_nil_iff (s : jsstring) :
  JS.trim s = [] <-> forallb JS.isWhiteSpace s = true.
Proof.
  split.
  - intros H. destruct (trim_split s) as [l [r [E [Wl Wr]]]].
    rewrite H in E. rewrite E. simpl. rewrite forallb_app, Wl, Wr. reflexivity.
  - intros H. unfold JS.trim.
    assert (T : JS.trimStart s = []).
    { induction s as [|u s IH]; [reflexivity|].
      simpl in *. apply andb_true_iff in H as [Hu Hs]. rewrite Hu. exact (IH Hs). }
    rewrite T. reflexivity.
Qed.

Lemma truthy_true (s : jsstring) : JS.truthy s = true <-> s <> [].
Proof. destruct s; simpl; split; congruence. Qed.

Lemma truthy_false (s : jsstring) : JS.truthy s = false <-> s = [].
Proof. destruct s; simpl; split; congruence. Qed.

(** [find] returns the first element, in array order, that satisfies the
    predicate. *)
Lemma Array_find_first {A} (p : A -> bool) (a : list A) (x : A) :
  JS.Array_find p a = Some x <->
  exists i, nth_error a i = Some x /\ p x = true
            /\ forallb (fun y => negb (p y)) (firstn i a) = true.
Proof.
  unfold JS.Array_find. induction a as [|y a IH]; simpl.
  - split; [discriminate | intros [i [H _]]; destruct i; discriminate].
  - destruct (p y) eqn:Hy.
    + split.
      * intros [= ->]. exists 0%nat. repeat split; assumption.
      * intros [[|i] [Hn [Hx Hf]]]; simpl in *; [congruence|].
        rewrite Hy in Hf. discriminate.
    + rewrite IH. split.
      * intros [i [Hn [Hx Hf]]]. exists (S i). simpl. rewrite Hy. repeat split; assumption.
      * intros [[|i] [Hn [Hx Hf]]]; simpl in *; [congruence|].
        rewrite Hy in Hf. exists i. repeat split; assumption.
Qed.

Lemma Array_find_none {A} (p : A -> bool) (a : list A) :
  JS.Array_find p a = None <-> forallb (fun y => negb (p y)) a = true.
Proof.
  unfold JS.Array_find. induction a as [|y a IH]; simpl; [tauto|].
  destruct (p y); simpl; [split; discriminate | exact IH].
Qed.

(** Dividing an integer by 8 and rounding: [Math.round(n / 8)]. *)
Lemma Math_round_div8 (n : Z) :
  JS.Math_round (inject_Z n / 8)%Q = (n + 4) / 8.
Proof.
  unfold JS.Math_round, Qfloor, Qdiv, Qmult, Qplus, Qinv, inject_Z. simpl.
  replace (n * 1 * 2 + 8) with ((n + 4) * 2) by lia.
  change 16 with (8 * 2). apply Z.div_mul_cancel_r; lia.
Qed.

Lemma Math_round_div8_nearest (n z : Z) :
  Z.abs (8 * JS.Math_round (inject_Z n / 8)%Q - n) <= Z.abs (8 * z - n).
Proof.
  rewrite Math_round_div8.
  pose proof (Z.div_mod (n + 4) 8 ltac:(lia)) as D.
  pose proof (Z.mod_pos_bound (n + 4) 8 ltac:(lia)) as B.
  lia.
Qed.

End BuiltIns.

(* ================================================================== *)
(** ** Words of the specification *)

(** [p] is a literal prefix of [s]. *)
Definition is_prefix (p s : jsstring) : Prop := exists t, s = p ++ t.

(** Every hyphen replaced by a space. *)
Definition hyphens_to_spaces (s : jsstring) : jsstring :=
  map (fun u => if (u =? 45)%N then 32%N else u) s.

(** No entry with a non-empty prefix matches [id]. *)
Definition fallback_only (id : jsstring) : bool :=
  forallb (fun base => negb (JS.truthy (KnownBase.id base))
                       || negb (JS.startsWith id (KnownBase.id base))) knownBases.

(** The last entry of the compiled-in table. *)
Definition fallback : KnownBase.t :=
  KnownBase.mk (js "") (js "?:") 4096 (js "Unknown, please let us know the ID").

(* ================================================================== *)
(** ** The scan of the table *)

Lemma find_base_first (bases : list KnownBase.t) (id : jsstring) (base : KnownBase.t) :
  find_base bases id = Some base <->
  exists i, nth_error bases i = Some base
            /\ is_prefix (KnownBase.id base) id
            /\ Forall (fun b => ~ is_prefix (KnownBase.id b) id) (firstn i bases).
Proof.
  unfold find_base, is_prefix. rewrite Array_find_first.
  split; intros [i [Hn [Hp Hf]]]; exists i; (split; [exact Hn|]).
  - split; [apply startsWith_spec; exact Hp|].
    apply Forall_forall. intros b Hb.
    rewrite forallb_forall in Hf. specialize (Hf b Hb).
    apply negb_true_iff in Hf. apply startsWith_false. exact Hf.
  - split; [apply startsWith_spec; exact Hp|].
    apply forallb_forall. intros b Hb.
    rewrite Forall_forall in Hf. specialize (Hf b Hb).
    apply negb_true_iff. apply startsWith_false. exact Hf.
Qed.

(** A table that ends with an empty-prefix entry matches every identifier. *)
Lemma find_base_trailing_fallback (bases : list KnownBase.t) (last : KnownBase.t)
    (id : jsstring) :
  KnownBase.id last = [] ->
  exists base, find_base (bases ++ [last]) id = Some base.
Proof.
  intros Hlast. destruct (find_base (bases ++ [last]) id) as [base|] eqn:E.
  - exists base. reflexivity.
  - apply Array_find_none in E. rewrite forallb_app in E.
    apply andb_true_iff in E as [_ E]. simpl in E.
    rewrite Hlast, startsWith_nil in E. discriminate.
Qed.

Lemma find_base_knownBases (id : jsstring) :
  exists base, find_base knownBases id = Some base.
Proof.
  exact (find_base_trailing_fallback (firstn 3 knownBases) fallback id eq_refl).
Qed.

Lemma find_base_In (bases : list KnownBase.t) (id : jsstring) (base : KnownBase.t) :
  find_base bases id = Some base -> In base bases.
Proof. intros H. apply find_some in H. apply H. Qed.

Lemma fallback_only_find (id : jsstring) :
  fallback_only id = true -> find_base knownBases id = Some fallback.
Proof.
  unfold fallback_only, find_base, JS.Array_find, fallback. cbn. intros H.
  repeat (apply andb_true_iff in H as [H1 H];
          apply negb_true_iff in H1; rewrite H1; clear H1).
  rewrite startsWith_nil. reflexivity.
Qed.

(* ================================================================== *)
(** ** The record the function returns *)

Section Normalizer.

Context {Other Setup : Type}.
Variable model : ModelDescription.t Other.
Variable source : DModelSource.t Setup.

(** The function returns whenever a base is selected, with these fields. *)
Lemma openAIModelToDLLM_with_fields (bases : list KnownBase.t) (base : KnownBase.t) :
  select_base bases (ModelDescription.id model) = Some base ->
  exists r,
    openAIModelToDLLM_with bases model source = Normal r
    /\ DLLM.id r = DModelSource.id source ++ js "-" ++ ModelDescription.id model
    /\ DLLM.label r =
         KnownBase.label base ++
         (if JS.truthy (suffix_of base (ModelDescription.id model))
          then js " (" ++ JS.trim (JS.replaceAll (suffix_of base (ModelDescription.id model))
                                     (js "-") (js " ")) ++ js ")"
          else js "")
    /\ DLLM.created r = ModelDescription.created model
    /\ DLLM.description r = KnownBase.description base
    /\ DLLM.tags r = [js "stream"; js "chat"]
    /\ DLLM.contextTokens r = KnownBase.context base
    /\ DLLM.hidden r = JS.truthy (suffix_of base (ModelDescription.id model))
    /\ DLLM.sId r = DModelSource.id source
    /\ DLLM._source r = source
    /\ LLMOptionsOpenAI.llmRef (DLLM.options r) = ModelDescription.id model
    /\ LLMOptionsOpenAI.llmTemperature (DLLM.options r) = 1 # 2
    /\ LLMOptionsOpenAI.llmResponseTokens (DLLM.options r) =
         JS.Math_round (inject_Z (KnownBase.context base) / 8)%Q.
Proof.
  intros Hsel. unfold openAIModelToDLLM_with. rewrite Hsel.
  eexists. split; [reflexivity|]. cbn [DLLM.id DLLM.label DLLM.created DLLM.description
    DLLM.tags DLLM.contextTokens DLLM.hidden DLLM.sId DLLM._source DLLM.options
    LLMOptionsOpenAI.llmRef LLMOptionsOpenAI.llmTemperature LLMOptionsOpenAI.llmResponseTokens].
  rewrite negb_involutive. repeat split.
Qed.

(** Over the compiled-in table the scan selects a base, the identifier
    is that base's prefix followed by a remainder, and the suffix is the
    trimmed remainder. *)
Lemma select_base_knownBases :
  exists base rest,
    find_base knownBases (ModelDescription.id model) = Some base
    /\ select_base knownBases (ModelDescription.id model) = Some base
    /\ ModelDescription.id model = KnownBase.id base ++ rest
    /\ suffix_of base (ModelDescription.id model) = JS.trim rest.
Proof.
  destruct (find_base_knownBases (ModelDescription.id model)) as [base Hf].
  pose proof Hf as Hp. apply find_base_first in Hp as [_ [_ [[rest Hr] _]]].
  exists base, rest. split; [exact Hf|]. split.
  - unfold select_base. rewrite Hf. reflexivity.
  - split; [exact Hr|]. unfold suffix_of. rewrite Hr at 1.
    rewrite slice_prefix. reflexivity.
Qed.

End Normalizer.

(** A table without entries leaves nothing to select: the function throws. *)
Example openAIModelToDLLM_with_empty_table :
  openAIModelToDLLM_with [] (model_of (js "gpt-4") 0) (source_of (js "openai"))
  = Throw TypeError.
Proof. reflexivity. Qed.

(* ================================================================== *)
(** ** Properties of the normalizer *)

Section Properties.

Context {Other Setup : Type}.
Variable model : ModelDescription.t Other.
Variable source : DModelSource.t Setup.

Local Abbreviation raw := (ModelDescription.id model).

(** Unpacks the selected base, the remainder after its prefix and the
    returned record with its fields. *)
Ltac normalize_cases base rest r :=
  let Hfind := fresh "Hfind" in
  let Hsel := fresh "Hsel" in
  let Hraw := fresh "Hraw" in
  let Hsuf := fresh "Hsuf" in
  destruct (select_base_knownBases model) as [base [rest [Hfind [Hsel [Hraw Hsuf]]]]];
  destruct (openAIModelToDLLM_with_fields model source knownBases base Hsel)
    as [r [Hret [Fid [Flabel [Fcreated [Fdescr [Ftags [Fctx [Fhidden
          [FsId [Fsource [Fref [Ftemp Ftokens]]]]]]]]]]]]];
  change (openAIModelToDLLM_with knownBases model source)
    with (openAIModelToDLLM model source) in Hret;
  rewrite Hsuf in *.

(** C1. The normalizer is total: for every raw identifier, creation
    timestamp and source it returns exactly one record, with every field
    set, and never throws.  The same holds over any table that ends with
    an empty-prefix entry. *)
Theorem openAIModelToDLLM_total :
  (exists r,
      openAIModelToDLLM model source = Normal r
      /\ (forall r', openAIModelToDLLM model source = Normal r' -> r' = r)
      /\ DLLM.created r = ModelDescription.created model
      /\ DLLM.sId r = DModelSource.id source
      /\ DLLM._source r = source
      /\ LLMOptionsOpenAI.llmRef (DLLM.options r) = raw
      /\ LLMOptionsOpenAI.llmTemperature (DLLM.options r) = 1 # 2)
  /\ (forall e, openAIModelToDLLM model source <> Throw e)
  /\ (forall bases last, KnownBase.id last = [] ->
        exists r, openAIModelToDLLM_with (bases ++ [last]) model source = Normal r).
Proof.
  normalize_cases base rest r. split; [|split].
  - exists r. split; [exact Hret|]. split.
    + intros r' Hr'. rewrite Hret in Hr'. injection Hr' as <-. reflexivity.
    + repeat split; assumption.
  - intros e He. rewrite Hret in He. discriminate.
  - intros bases last Hlast.
    destruct (find_base_trailing_fallback bases last raw Hlast) as [b Hb].
    destruct (openAIModelToDLLM_with_fields model source (bases ++ [last]) b) as [r' [Hr' _]].
    + unfold select_base. rewrite Hb. reflexivity.
    + exists r'. exact Hr'.
Qed.

(** C2. The base is chosen by an in-order scan, first match wins: it is
    the entry at some index of the table whose prefix is a literal prefix
    of the raw identifier while no entry before that index is; the record
    takes its context window and description from it.  For
    "gpt-3.5-turbo-0301" the context window is 4097. *)
Theorem openAIModelToDLLM_first_match :
  (exists i base r,
      nth_error knownBases i = Some base
      /\ is_prefix (KnownBase.id base) raw
      /\ Forall (fun b => ~ is_prefix (KnownBase.id b) raw) (firstn i knownBases)
      /\ select_base knownBases raw = Some base
      /\ openAIModelToDLLM model source = Normal r
      /\ DLLM.contextTokens r = KnownBase.context base
      /\ DLLM.description r = KnownBase.description base)
  /\ (forall created other,
        exists r,
          openAIModelToDLLM
            (ModelDescription.mk Other (js "gpt-3.5-turbo-0301") created other) source
          = Normal r
          /\ DLLM.contextTokens r = 4097).
Proof.
  split.
  - normalize_cases base rest r.
    apply find_base_first in Hfind as [i [Hn [Hp Hf]]].
    exists i, base, r. repeat split; assumption.
  - intros created other. eexists. split; reflexivity.
Qed.

(** C3. The hidden flag is true exactly when the remainder of the raw
    identifier after the matched prefix is non-empty once trimmed; an
    identifier equal to a prefix of the table, such as "gpt-4-32k", has an
    empty suffix and is not hidden. *)
Theorem openAIModelToDLLM_hidden :
  (exists base rest r,
      select_base knownBases raw = Some base
      /\ raw = KnownBase.id base ++ rest
      /\ openAIModelToDLLM model source = Normal r
      /\ (DLLM.hidden r = true <-> JS.trim rest <> []))
  /\ Forall (fun entry =>
        forall created other,
          suffix_of entry (KnownBase.id entry) = []
          /\ exists r,
               openAIModelToDLLM
                 (ModelDescription.mk Other (KnownBase.id entry) created other) source
               = Normal r
               /\ DLLM.hidden r = false) knownBases
  /\ (forall created other,
        exists r,
          openAIModelToDLLM (ModelDescription.mk Other (js "gpt-4-32k") created other) source
          = Normal r
          /\ DLLM.hidden r = false
          /\ DLLM.label r = js "GPT-4-32").
Proof.
  split; [|split].
  - normalize_cases base rest r. exists base, rest, r.
    repeat split; try assumption.
    + intros H. apply truthy_true. rewrite <- Fhidden. exact H.
    + intros H. rewrite Fhidden. apply truthy_true. exact H.
  - repeat constructor; eexists; split; reflexivity.
  - intros created other. eexists. repeat split; reflexivity.
Qed.

(** C4. The label is the base label when the suffix is empty; otherwise
    it is the base label, a space, and in parentheses the suffix with
    every hyphen replaced by a space and then trimmed.  "gpt-4-0314"
    gets the label "GPT-4 (0314)". *)
Theorem openAIModelToDLLM_label :
  (exists base rest r,
      select_base knownBases raw = Some base
      /\ raw = KnownBase.id base ++ rest
      /\ openAIModelToDLLM model source = Normal r
      /\ (JS.trim rest = [] -> DLLM.label r = KnownBase.label base)
      /\ (JS.trim rest <> [] ->
          DLLM.label r =
            KnownBase.label base ++ js " (" ++
            JS.trim (hyphens_to_spaces (JS.trim rest)) ++ js ")"))
  /\ (forall created other,
        exists r,
          openAIModelToDLLM (ModelDescription.mk Other (js "gpt-4-0314") created other) source
          = Normal r
          /\ DLLM.label r = js "GPT-4 (0314)").
Proof.
  split.
  - normalize_cases base rest r. exists base, rest, r.
    repeat split; try assumption.
    + intros H. rewrite Flabel, H. simpl. apply app_nil_r.
    + intros H. rewrite Flabel. apply truthy_true in H. rewrite H.
      change (js "-") with [45%N]. change (js " ") with [32%N].
      rewrite replaceAll_unit. reflexivity.
  - intros created other. eexists. split; reflexivity.
Qed.

(** C5. The record's maximal response tokens are the context window of
    the matched base divided by 8 and rounded to the nearest integer; over
    the compiled-in table: 32768 gives 4096, 8192 gives 1024, 4097 gives
    512 and 4096 gives 512. *)
Theorem openAIModelToDLLM_response_tokens :
  (exists base r,
      select_base knownBases raw = Some base
      /\ openAIModelToDLLM model source = Normal r
      /\ LLMOptionsOpenAI.llmResponseTokens (DLLM.options r)
         = JS.Math_round (inject_Z (KnownBase.context base) / 8)%Q
      /\ (forall z : Z,
            Z.abs (8 * LLMOptionsOpenAI.llmResponseTokens (DLLM.options r)
                   - KnownBase.context base)
            <= Z.abs (8 * z - KnownBase.context base))
      /\ In (KnownBase.context base, LLMOptionsOpenAI.llmResponseTokens (DLLM.options r))
            [(32768, 4096); (8192, 1024); (4097, 512); (4096, 512)])
  /\ map (fun entry => (KnownBase.context entry,
                        JS.Math_round (inject_Z (KnownBase.context entry) / 8)%Q))
         knownBases
     = [(32768, 4096); (8192, 1024); (4097, 512); (4096, 512)].
Proof.
  split; [|reflexivity].
  normalize_cases base rest r. exists base, r.
  split; [assumption|]. split; [assumption|]. split; [assumption|]. split.
  - intros z. rewrite Ftokens. apply Math_round_div8_nearest.
  - rewrite Ftokens. apply find_base_In in Hfind.
    repeat (destruct Hfind as [<- | Hfind]; [simpl; tauto|]). destruct Hfind.
Qed.

(** C6. The composite id is the source id, one "-", and the raw
    identifier, concatenated code unit for code unit and not transformed
    otherwise. *)
Theorem openAIModelToDLLM_composite_id :
  exists r,
    openAIModelToDLLM model source = Normal r
    /\ DLLM.id r = DModelSource.id source ++ [45%N] ++ raw
    /\ firstn (List.length (DModelSource.id source)) (DLLM.id r) = DModelSource.id source
    /\ skipn (S (List.length (DModelSource.id source))) (DLLM.id r) = raw.
Proof.
  normalize_cases base rest r. exists r. split; [assumption|].
  change (js "-") with [45%N] in Fid. rewrite Fid.
  split; [reflexivity|]. split.
  - rewrite firstn_app, firstn_all, Nat.sub_diag. simpl. apply app_nil_r.
  - rewrite skipn_app, skipn_all2 by lia.
    replace (S (List.length (DModelSource.id source))
             - List.length (DModelSource.id source))%nat with 1%nat by lia.
    reflexivity.
Qed.

(** C7, as the code has it.  When no entry with a non-empty prefix
    matches the raw identifier, the record takes the description and the
    context window of the fallback entry, its label starts with the
    fallback label, the suffix is the whole trimmed identifier, and the
    record is hidden exactly when that trimmed identifier is non-empty.
    "text-davinci-003" is such an identifier: its suffix is the identifier
    itself, its label starts with the fallback label and it is hidden. *)
Theorem openAIModelToDLLM_fallback :
  fallback_only raw = true ->
  (exists r,
      openAIModelToDLLM model source = Normal r
      /\ select_base knownBases raw = Some fallback
      /\ suffix_of fallback raw = JS.trim raw
      /\ DLLM.description r = KnownBase.description fallback
      /\ DLLM.contextTokens r = KnownBase.context fallback
      /\ (exists shown, DLLM.label r = KnownBase.label fallback ++ shown)
      /\ (JS.trim raw = [] -> DLLM.label r = KnownBase.label fallback)
      /\ (JS.trim raw <> [] ->
          DLLM.label r = KnownBase.label fallback ++ js " (" ++
                         JS.trim (hyphens_to_spaces (JS.trim raw)) ++ js ")")
      /\ (DLLM.hidden r = true <-> JS.trim raw <> []))
  /\ (forall created other,
        fallback_only (js "text-davinci-003") = true
        /\ suffix_of fallback (js "text-davinci-003") = js "text-davinci-003"
        /\ exists r,
             openAIModelToDLLM
               (ModelDescription.mk Other (js "text-davinci-003") created other) source
             = Normal r
             /\ DLLM.label r = KnownBase.label fallback ++ js " (text davinci 003)"
             /\ DLLM.hidden r = true).
Proof.
  intros Hfb. split;
    [|intros created other; split; [reflexivity|]; split; [reflexivity|];
      eexists; repeat split; reflexivity].
  apply fallback_only_find in Hfb.
  assert (Hsel : select_base knownBases raw = Some fallback).
  { unfold select_base. rewrite Hfb. reflexivity. }
  assert (Hsuf : suffix_of fallback raw = JS.trim raw).
  { unfold suffix_of. change (JS.length (KnownBase.id fallback)) with 0.
    rewrite slice_0. reflexivity. }
  destruct (openAIModelToDLLM_with_fields model source knownBases fallback Hsel)
    as [r [Hret [_ [Flabel [_ [Fdescr [_ [Fctx [Fhidden _]]]]]]]]].
  rewrite Hsuf in Flabel, Fhidden.
  exists r. split; [exact Hret|]. split; [exact Hsel|]. split; [exact Hsuf|].
  split; [exact Fdescr|]. split; [exact Fctx|]. split; [|split; [|split]].
  - eexists. exact Flabel.
  - intros H. rewrite Flabel, H. apply app_nil_r.
  - intros H. rewrite Flabel. apply truthy_true in H. rewrite H.
    change (js "-") with [45%N]. change (js " ") with [32%N].
    rewrite replaceAll_unit. reflexivity.
  - rewrite Fhidden. apply truthy_true.
Qed.

(** C8. The tags of the record are "stream" and "chat", whatever the
    descriptor holds. *)
Theorem openAIModelToDLLM_tags :
  exists r,
    openAIModelToDLLM model source = Normal r
    /\ DLLM.tags r = [js "stream"; js "chat"]
    /\ (forall (Other' : Type) (model' : ModelDescription.t Other'),
          exists r',
            openAIModelToDLLM model' source = Normal r'
            /\ DLLM.tags r' = DLLM.tags r).
Proof.
  normalize_cases base rest r. exists r.
  split; [assumption|]. split; [assumption|].
  intros Other' model'.
  destruct (select_base_knownBases model') as [base' [_ [_ [Hsel' _]]]].
  destruct (openAIModelToDLLM_with_fields model' source knownBases base' Hsel')
    as [r' [Hret' [_ [_ [_ [_ [Ftags' _]]]]]]].
  exists r'. split; [exact Hret'|]. rewrite Ftags, Ftags'. reflexivity.
Qed.

(** C9. The alternative after the scan is never taken: the last entry of
    the table has the empty prefix, the empty string is a prefix of every
    identifier, so the scan itself finds an entry and the selected base is
    the one the scan found. *)
Theorem select_base_fallback_branch_unreachable (id : jsstring) :
  JS.Array_get knownBases (Z.of_nat (List.length knownBases) - 1) = Some fallback
  /\ KnownBase.id fallback = []
  /\ JS.startsWith id (KnownBase.id fallback) = true
  /\ find_base knownBases id <> None
  /\ select_base knownBases id = find_base knownBases id.
Proof.
  split; [reflexivity|]. split; [reflexivity|]. split; [apply startsWith_nil|].
  destruct (find_base_knownBases id) as [base Hb].
  unfold select_base. rewrite Hb. split; [discriminate | reflexivity].
Qed.

(** C10, as the code has it.  The record is not hidden exactly when its
    label is the label of the matched base.  When it is hidden, the
    suffix is non-empty and the label is the base label followed by a
    space and, in parentheses, the suffix with hyphens turned into spaces
    and trimmed, so the label is strictly longer than the base label. *)
Theorem openAIModelToDLLM_label_hidden :
  exists base rest r,
    select_base knownBases raw = Some base
    /\ raw = KnownBase.id base ++ rest
    /\ openAIModelToDLLM model source = Normal r
    /\ (DLLM.hidden r = false <-> DLLM.label r = KnownBase.label base)
    /\ (DLLM.hidden r = true ->
        JS.trim rest <> []
        /\ DLLM.label r = KnownBase.label base ++ js " (" ++
                          JS.trim (hyphens_to_spaces (JS.trim rest)) ++ js ")"
        /\ (List.length (KnownBase.label base) < List.length (DLLM.label r))%nat).
Proof.
  normalize_cases base rest r. exists base, rest, r.
  split; [assumption|]. split; [assumption|]. split; [assumption|].
  change (js "-") with [45%N] in Flabel. change (js " ") with [32%N] in Flabel.
  rewrite replaceAll_unit in Flabel. fold hyphens_to_spaces in Flabel.
  rewrite Fhidden, Flabel. destruct (JS.truthy (JS.trim rest)) eqn:Ht.
  - split.
    + split; [discriminate|]. intros H. apply (f_equal (@List.length _)) in H.
      rewrite !length_app in H. simpl in H. lia.
    + intros _. split; [apply truthy_true; exact Ht|]. split; [reflexivity|].
      rewrite !length_app. simpl. lia.
  - split; [|discriminate]. split; [intros _; apply app_nil_r | reflexivity].
Qed.

End Properties.

(* ================================================================== *)
(** ** Concrete identifiers *)

(** "text-davinci-003" matches only the fallback entry, and the record
    built for it has the fallback's description and context window. *)
Lemma text_davinci_003_uses_fallback :
  fallback_only (js "text-davinci-003") = true
  /\ exists r,
       openAIModelToDLLM (model_of (js "text-davinci-003") 1669599635)
                         (source_of (js "openai")) = Normal r
       /\ DLLM.description r = KnownBase.description fallback
       /\ DLLM.contextTokens r = KnownBase.context fallback
       /\ (DLLM.hidden r = true <-> JS.trim (js "text-davinci-003") <> []).
Proof.
  split; [reflexivity|].
  destruct (openAIModelToDLLM_fallback (model_of (js "text-davinci-003") 1669599635)
              (source_of (js "openai")) eq_refl)
    as [[r [Hret [_ [_ [Hdescr [Hctx [_ [_ [_ Hhidden]]]]]]]]] _].
  exists r. repeat split; try assumption; apply Hhidden.
Defined.

(** Against C7 as stated: the identifier made of one space is matched by
    the fallback entry only, and its record is not hidden. *)
Lemma openAIModelToDLLM_fallback_blank_not_hidden :
  fallback_only (js " ") = true
  /\ exists r,
       openAIModelToDLLM (model_of (js " ") 0) (source_of (js "openai")) = Normal r
       /\ suffix_of fallback (js " ") = []
       /\ DLLM.label r = js "?:"
       /\ DLLM.hidden r = false
       /\ DLLM.hidden r <> true.
Proof.
  split; [reflexivity|]. eexists.
  repeat split; try reflexivity. discriminate.
Qed.

(** Against C10 as stated: "gpt-4-" is hidden, and what its label adds
    to the base label is a pair of parentheses with nothing inside. *)
Lemma openAIModelToDLLM_empty_parentheses :
  exists r,
    openAIModelToDLLM (model_of (js "gpt-4-") 0) (source_of (js "openai")) = Normal r
    /\ select_base knownBases (js "gpt-4-") = nth_error knownBases 1
    /\ DLLM.hidden r = true
    /\ DLLM.label r = js "GPT-4 ()"
    /\ ~ (exists shown, shown <> []
                        /\ DLLM.label r = js "GPT-4" ++ js " (" ++ shown ++ js ")").
Proof.
  eexists. split; [reflexivity|]. split; [reflexivity|].
  split; [reflexivity|]. split; [reflexivity|].
  intros [shown [Hne H]]. apply Hne. cbn in H.
  injection H as H. destruct shown as [|u shown]; [reflexivity|].
  destruct shown; discriminate.
Qed.

(* ================================================================== *)
(** ** The fetch callback and the setup form *)

(** [a.map(f)] where a call of [f] may throw: the first throw ends the map. *)
Fixpoint Array_map {A B : Type} (f : A -> completion B) (a : list A)
  : completion (list B) :=
  match a with
  | [] => Normal []
  | x :: rest =>
      match f x with
      | Throw e => Throw e
      | Normal y =>
          match Array_map f rest with
          | Throw e => Throw e
          | Normal ys => Normal (y :: ys)
          end
      end
  end.

(** The [llms] that the [onSuccess] callback of the model query hands to the
    store: [source ? models.map(model => openAIModelToDLLM(model, source)) : []].
    The source of the form may be missing. *)
Definition onSuccess_llms {Other Setup : Type}
    (source : option (DModelSource.t Setup)) (models : list (ModelDescription.t Other))
  : completion (list (DLLM.t Setup)) :=
  match source with
  | Some source => Array_map (fun model => openAIModelToDLLM model source) models
  | None => Normal []
  end.

(** What [OpenAISourceSetup] hands to the query and to the controls it
    renders. *)
Inductive ButtonColor := warning | primary.
Inductive ButtonIcon := SyncIcon | FileDownloadIcon.

Module View.
Record t := mk {
  key_required : bool;        (* FormInputKey required *)
  key_isError : bool;         (* FormInputKey isError *)
  key_already_set : bool;     (* the "already set" note *)
  key_create_links : bool;    (* the "create Key" and "apply to GPT-4" links *)
  key_check_usage : bool;     (* the "check usage" link *)
  advanced_fields : bool;     (* Organization ID, API Host, Helicone Key *)
  advanced_label : jsstring;
  query_enabled : bool;       (* useQuery enabled *)
  button_color : ButtonColor;
  button_disabled : bool;
  button_endDecorator : ButtonIcon;
}.
End View.

(** The body of [OpenAISourceSetup] up to the markup.  [isValidOpenAIApiKey]
    and [hasServerKeyOpenAI] come from [openai.client]; [showAdvanced] is the
    component's state, [oaiKey] and [sourceLLMs] come from the setup store,
    [isFetching] and [isError] from the query. *)
Definition OpenAISourceSetup {LLM : Type}
    (isValidOpenAIApiKey : jsstring -> bool) (hasServerKeyOpenAI : bool)
    (showAdvanced : bool) (oaiKey : jsstring) (sourceLLMs : list LLM)
    (isFetching isError : bool) : View.t :=
  let hasModels := negb (negb (negb (Z.of_nat (List.length sourceLLMs) =? 0))) in
  let keyValid := isValidOpenAIApiKey oaiKey in
  let keyError := negb (negb (JS.truthy oaiKey)) && negb keyValid in
  let shallFetchSucceed := if JS.truthy oaiKey then keyValid else hasServerKeyOpenAI in
  {|
    View.key_required := negb hasServerKeyOpenAI;
    View.key_isError := keyError;
    View.key_already_set := hasServerKeyOpenAI;
    View.key_create_links :=
      if hasServerKeyOpenAI then false else negb (JS.truthy oaiKey);
    View.key_check_usage := JS.truthy oaiKey && keyValid;
    View.advanced_fields := showAdvanced;
    View.advanced_label := if showAdvanced then js "Hide Advanced" else js "Advanced";
    View.query_enabled := negb hasModels && shallFetchSucceed;
    View.button_color := if isError then warning else primary;
    View.button_disabled := negb shallFetchSucceed || isFetching;
    View.button_endDecorator := if hasModels then SyncIcon else FileDownloadIcon;
  |}.

(* ================================================================== *)
(** ** More facts about the built-ins *)

Section WhiteSpace.

Lemma startsWith_app (p t : jsstring) : JS.startsWith (p ++ t) p = true.
Proof. apply startsWith_spec. exists t. reflexivity. Qed.

Lemma startsWith_app_app (p s q : jsstring) :
  JS.startsWith (p ++ s) (p ++ q) = JS.startsWith s q.
Proof.
  induction p as [|a p IH]; [reflexivity|].
  simpl. rewrite N.eqb_refl, IH. reflexivity.
Qed.

(** White space never starts with something that is not white space. *)
Lemma startsWith_ws_false (ws : jsstring) (c : codeunit) (p : jsstring) :
  forallb JS.isWhiteSpace ws = true -> JS.isWhiteSpace c = false ->
  JS.startsWith ws (c :: p) = false.
Proof.
  destruct ws as [|b ws]; simpl; [reflexivity|].
  intros H Hc. apply andb_true_iff in H as [Hb _].
  destruct (N.eqb_spec b c) as [->|_]; [congruence | reflexivity].
Qed.

(** Appending white space does not change which white-space-free prefixes
    a string starts with. *)
Lemma startsWith_app_ws (s ws p : jsstring) :
  forallb JS.isWhiteSpace ws = true ->
  forallb (fun u => negb (JS.isWhiteSpace u)) p = true ->
  JS.startsWith (s ++ ws) p = JS.startsWith s p.
Proof.
  intros Hws. revert p. induction s as [|b s IH]; intros p Hp.
  - destruct p as [|c p]; simpl; [apply startsWith_nil|].
    simpl in Hp. apply andb_true_iff in Hp as [Hc _]. apply negb_true_iff in Hc.
    apply startsWith_ws_false; assumption.
  - destruct p as [|c p]; [reflexivity|].
    simpl in *. apply andb_true_iff in Hp as [_ Hp]. rewrite (IH p Hp). reflexivity.
Qed.

Lemma trimStart_ws_app (w x : jsstring) :
  forallb JS.isWhiteSpace w = true -> JS.trimStart (w ++ x) = JS.trimStart x.
Proof.
  induction w as [|u w IH]; simpl; [reflexivity|].
  intros H. apply andb_true_iff in H as [Hu Hw]. rewrite Hu. exact (IH Hw).
Qed.

Lemma trimStart_app (s x : jsstring) :
  JS.trimStart s <> [] -> JS.trimStart (s ++ x) = JS.trimStart s ++ x.
Proof.
  induction s as [|u s IH]; simpl; [congruence|].
  destruct (JS.isWhiteSpace u); [exact IH | reflexivity].
Qed.

Lemma trimStart_nil_ws (s : jsstring) :
  JS.trimStart s = [] -> forallb JS.isWhiteSpace s = true.
Proof.
  induction s as [|u s IH]; simpl; [reflexivity|].
  destruct (JS.isWhiteSpace u); [exact IH | discriminate].
Qed.

Lemma trimEnd_app_ws (t ws : jsstring) :
  forallb JS.isWhiteSpace ws = true -> JS.trimEnd (t ++ ws) = JS.trimEnd t.
Proof.
  intros H. unfold JS.trimEnd. rewrite rev_app_distr, trimStart_ws_app; [reflexivity|].
  rewrite forallb_rev. exact H.
Qed.

(** White space at the end of a string is lost in [trim]. *)
Lemma trim_app_ws (s ws : jsstring) :
  forallb JS.isWhiteSpace ws = true -> JS.trim (s ++ ws) = JS.trim s.
Proof.
  intros H. unfold JS.trim. destruct (JS.trimStart s) as [|u t] eqn:E.
  - apply trimStart_nil_ws in E.
    assert (A : forallb JS.isWhiteSpace (s ++ ws) = true)
      by (rewrite forallb_app, E, H; reflexivity).
    rewrite <- (app_nil_r (s ++ ws)), trimStart_ws_app by exact A. reflexivity.
  - rewrite trimStart_app by (rewrite E; discriminate).
    rewrite E. apply trimEnd_app_ws. exact H.
Qed.

Lemma trim_In (s : jsstring) (u : codeunit) : In u (JS.trim s) -> In u s.
Proof.
  intros H. destruct (trim_split s) as [l [r [E _]]]. rewrite E.
  apply in_or_app. right. apply in_or_app. left. exact H.
Qed.

Lemma hyphens_to_spaces_no_hyphen (s : jsstring) : ~ In 45%N (hyphens_to_spaces s).
Proof.
  unfold hyphens_to_spaces. intros H. apply in_map_iff in H as [u [Hu _]].
  destruct (N.eqb_spec u 45); [discriminate | congruence].
Qed.

(** A hyphen after a hyphen-free text marks where the text ends. *)
Lemma hyphen_split_inj (a b x y : jsstring) :
  ~ In 45%N a -> ~ In 45%N b ->
  a ++ 45%N :: x = b ++ 45%N :: y -> a = b /\ x = y.
Proof.
  revert b. induction a as [|u a IH]; intros [|v b] Ha Hb E; simpl in *.
  - injection E as ->. split; reflexivity.
  - injection E as <- _. exfalso. apply Hb. left. reflexivity.
  - injection E as -> _. exfalso. apply Ha. left. reflexivity.
  - injection E as -> E. destruct (IH b) as [-> ->]; [tauto | tauto | exact E |].
    split; reflexivity.
Qed.

End WhiteSpace.

(** Appending white space to an identifier does not change the entry that
    a table with white-space-free prefixes selects for it. *)
Lemma find_base_app_ws (bases : list KnownBase.t) (id ws : jsstring) :
  forallb JS.isWhiteSpace ws = true ->
  forallb (fun base => forallb (fun u => negb (JS.isWhiteSpace u)) (KnownBase.id base))
          bases = true ->
  find_base bases (id ++ ws) = find_base bases id.
Proof.
  intros Hws. unfold find_base, JS.Array_find.
  induction bases as [|b bases IH]; simpl; [reflexivity|].
  intros H. apply andb_true_iff in H as [Hb Hbases].
  rewrite (startsWith_app_ws id ws (KnownBase.id b) Hws Hb), (IH Hbases). reflexivity.
Qed.

(** An entry's prefix followed by white space selects that entry. *)
Lemma find_base_prefix_ws (base : KnownBase.t) (ws : jsstring) :
  In base knownBases -> forallb JS.isWhiteSpace ws = true ->
  find_base knownBases (KnownBase.id base ++ ws) = Some base.
Proof.
  intros Hin Hws. unfold find_base, JS.Array_find.
  assert (Hh : JS.startsWith ws (js "-32k") = false)
    by (apply startsWith_ws_false; [exact Hws | reflexivity]).
  assert (Hg : forall p, JS.startsWith ws (103%N :: p) = false)
    by (intros p; apply startsWith_ws_false; [exact Hws | reflexivity]).
  simpl in Hin. destruct Hin as [<-|[<-|[<-|[<-|[]]]]];
    unfold knownBases; cbn [find KnownBase.id].
  - rewrite startsWith_app. reflexivity.
  - change (js "gpt-4-32k") with (js "gpt-4" ++ js "-32k").
    rewrite startsWith_app_app, Hh, startsWith_app. reflexivity.
  - rewrite startsWith_app.
    replace (JS.startsWith (js "gpt-3.5-turbo" ++ ws) (js "gpt-4-32k")) with false by reflexivity.
    replace (JS.startsWith (js "gpt-3.5-turbo" ++ ws) (js "gpt-4")) with false by reflexivity.
    reflexivity.
  - change (js "" ++ ws) with ws.
    change (js "gpt-4-32k") with (103%N :: js "pt-4-32k").
    change (js "gpt-4") with (103%N :: js "pt-4").
    change (js "gpt-3.5-turbo") with (103%N :: js "pt-3.5-turbo").
    rewrite !Hg, startsWith_nil. reflexivity.
Qed.

(* ================================================================== *)
(** ** Further properties of the normalizer *)

(** Unpacks, for a descriptor and a source, the selected base, the
    remainder after its prefix and the returned record with its fields. *)
Ltac record_of model source base rest r :=
  let Hfind := fresh "Hfind" in
  let Hsel := fresh "Hsel" in
  let Hraw := fresh "Hraw" in
  let Hsuf := fresh "Hsuf" in
  destruct (select_base_knownBases model) as [base [rest [Hfind [Hsel [Hraw Hsuf]]]]];
  destruct (openAIModelToDLLM_with_fields model source knownBases base Hsel)
    as [r [Hret [Fid [Flabel [Fcreated [Fdescr [Ftags [Fctx [Fhidden
          [FsId [Fsource [Fref [Ftemp Ftokens]]]]]]]]]]]]];
  change (openAIModelToDLLM_with knownBases model source)
    with (openAIModelToDLLM model source) in Hret;
  rewrite Hsuf in *.

Section MoreProperties.

Context {Other Setup : Type}.
Variable model : ModelDescription.t Other.
Variable source : DModelSource.t Setup.

Local Abbreviation raw := (ModelDescription.id model).

(** X4. A record is listed (not hidden) exactly when the raw identifier is
    the prefix of a table entry followed by white space only. *)
Theorem openAIModelToDLLM_listed_iff :
  exists r,
    openAIModelToDLLM model source = Normal r
    /\ (DLLM.hidden r = false <->
        exists base ws,
          In base knownBases
          /\ raw = KnownBase.id base ++ ws
          /\ forallb JS.isWhiteSpace ws = true).
Proof.
  record_of model source base rest r. exists r. split; [assumption|].
  rewrite Fhidden. split.
  - intros H. apply truthy_false in H. apply trim_nil_iff in H.
    exists base, rest. split; [exact (find_base_In _ _ _ Hfind)|]. split; assumption.
  - intros [b [ws [Hin [Hraw' Hws]]]].
    pose proof (find_base_prefix_ws b ws Hin Hws) as Hf.
    rewrite <- Hraw', Hfind in Hf. injection Hf as ->.
    rewrite Hraw in Hraw'. apply app_inv_head in Hraw'. subst rest.
    apply truthy_false. apply trim_nil_iff. exact Hws.
Qed.

(** X5. Whatever the identifier, the context window lies between 4096 and
    32768 tokens, the response budget between 512 and 4096 tokens, and
    eight response budgets fit into the context window. *)
Theorem openAIModelToDLLM_token_bounds :
  exists r,
    openAIModelToDLLM model source = Normal r
    /\ 4096 <= DLLM.contextTokens r <= 32768
    /\ 512 <= LLMOptionsOpenAI.llmResponseTokens (DLLM.options r) <= 4096
    /\ 8 * LLMOptionsOpenAI.llmResponseTokens (DLLM.options r) <= DLLM.contextTokens r.
Proof.
  record_of model source base rest r. exists r. split; [assumption|].
  rewrite Ftokens, Fctx, Math_round_div8. apply find_base_In in Hfind.
  simpl in Hfind. destruct Hfind as [<-|[<-|[<-|[<-|[]]]]]; cbn; lia.
Qed.

(** X7. The label starts with the label of the matched base; when the
    record is hidden, the text between the parentheses holds no hyphen and
    neither starts nor ends with white space. *)
Theorem openAIModelToDLLM_label_shape :
  exists base r,
    select_base knownBases raw = Some base
    /\ openAIModelToDLLM model source = Normal r
    /\ is_prefix (KnownBase.label base) (DLLM.label r)
    /\ (DLLM.hidden r = true ->
        exists shown,
          DLLM.label r = KnownBase.label base ++ js " (" ++ shown ++ js ")"
          /\ ~ In 45%N shown
          /\ JS.trimStart shown = shown
          /\ JS.trimEnd shown = shown).
Proof.
  record_of model source base rest r. exists base, r.
  split; [assumption|]. split; [assumption|]. split.
  - eexists. exact Flabel.
  - rewrite Fhidden. intros Ht. rewrite Ht in Flabel.
    change (js "-") with [45%N] in Flabel. change (js " ") with [32%N] in Flabel.
    rewrite replaceAll_unit in Flabel. fold hyphens_to_spaces in Flabel.
    eexists. split; [exact Flabel|]. split.
    + intros H. apply trim_In in H. exact (hyphens_to_spaces_no_hyphen _ H).
    + apply trim_ends.
Qed.

(** X6. White space appended to the raw identifier changes neither the
    label, nor the hidden flag, nor what the record takes from the table;
    it stays in the composite id and in the reference sent back. *)
Theorem openAIModelToDLLM_trailing_white_space (ws : jsstring) :
  forallb JS.isWhiteSpace ws = true ->
  exists r r',
    openAIModelToDLLM model source = Normal r
    /\ openAIModelToDLLM
         (ModelDescription.mk Other (raw ++ ws) (ModelDescription.created model)
            (ModelDescription.other model)) source = Normal r'
    /\ DLLM.label r' = DLLM.label r
    /\ DLLM.hidden r' = DLLM.hidden r
    /\ DLLM.description r' = DLLM.description r
    /\ DLLM.contextTokens r' = DLLM.contextTokens r
    /\ LLMOptionsOpenAI.llmResponseTokens (DLLM.options r')
       = LLMOptionsOpenAI.llmResponseTokens (DLLM.options r)
    /\ DLLM.id r' = DLLM.id r ++ ws
    /\ LLMOptionsOpenAI.llmRef (DLLM.options r')
       = LLMOptionsOpenAI.llmRef (DLLM.options r) ++ ws.
Proof.
  intros Hws. record_of model source base rest r.
  set (model' := ModelDescription.mk Other (raw ++ ws) (ModelDescription.created model)
                   (ModelDescription.other model)).
  assert (Hfind' : find_base knownBases (raw ++ ws) = Some base).
  { rewrite find_base_app_ws; [exact Hfind | exact Hws | reflexivity]. }
  assert (Hsel' : select_base knownBases (ModelDescription.id model') = Some base).
  { unfold select_base. cbn [model' ModelDescription.id]. rewrite Hfind'. reflexivity. }
  assert (Hsuf' : suffix_of base (ModelDescription.id model') = JS.trim rest).
  { unfold suffix_of. cbn [model' ModelDescription.id]. rewrite Hraw at 1.
    rewrite <- app_assoc, slice_prefix. apply trim_app_ws. exact Hws. }
  destruct (openAIModelToDLLM_with_fields model' source knownBases base Hsel')
    as [r' [Hret' [Fid' [Flabel' [_ [Fdescr' [_ [Fctx' [Fhidden'
          [_ [_ [Fref' [_ Ftokens']]]]]]]]]]]]].
  rewrite Hsuf' in *. cbn [model' ModelDescription.id] in Fid', Fref'.
  exists r, r'. split; [assumption|]. split; [exact Hret'|].
  rewrite Flabel', Flabel, Fhidden', Fhidden, Fdescr', Fdescr, Fctx', Fctx,
    Ftokens', Ftokens, Fid', Fid, Fref', Fref.
  repeat split. rewrite <- !app_assoc. reflexivity.
Qed.

End MoreProperties.

(* ================================================================== *)
(** ** Properties of the fetch callback *)

Section OnSuccess.

Context {Other Setup : Type}.

(** With a source, the callback normalizes the descriptors one by one, in
    the order of the list. *)
Lemma onSuccess_llms_pointwise (source : DModelSource.t Setup)
    (models : list (ModelDescription.t Other)) :
  exists llms,
    onSuccess_llms (Some source) models = Normal llms
    /\ Forall2 (fun model r => openAIModelToDLLM model source = Normal r) models llms.
Proof.
  unfold onSuccess_llms. induction models as [|model models [llms [E F]]]; simpl.
  - exists []. split; [reflexivity | constructor].
  - record_of model source base rest r. rewrite Hret, E.
    exists (r :: llms). split; [reflexivity|]. constructor; assumption.
Qed.

Lemma Forall2_map_eq {A B C} (P : A -> B -> Prop) (f : A -> C) (g : B -> C)
    (l : list A) (l' : list B) :
  Forall2 P l l' -> (forall a b, P a b -> f a = g b) -> map f l = map g l'.
Proof.
  intros F H. induction F as [|a b l l' Hab _ IH]; simpl; [reflexivity|].
  rewrite (H a b Hab), IH. reflexivity.
Qed.

Lemma NoDup_map_injective {A B} (f : A -> B) (l : list A) :
  (forall x y, f x = f y -> x = y) -> NoDup l -> NoDup (map f l).
Proof.
  intros Hinj Hnd. induction Hnd as [|x l Hx _ IH]; simpl; constructor; [|exact IH].
  intros H. apply in_map_iff in H as [y [Hy Hin]]. apply Hinj in Hy. subst y. exact (Hx Hin).
Qed.

Lemma openAIModelToDLLM_id_ref (model : ModelDescription.t Other)
    (source : DModelSource.t Setup) (r : DLLM.t Setup) :
  openAIModelToDLLM model source = Normal r ->
  DLLM.id r = DModelSource.id source ++ 45%N :: ModelDescription.id model
  /\ LLMOptionsOpenAI.llmRef (DLLM.options r) = ModelDescription.id model
  /\ DLLM.created r = ModelDescription.created model
  /\ DLLM._source r = source.
Proof.
  intros H. record_of model source base rest r'.
  rewrite Hret in H. injection H as <-. repeat split; assumption.
Qed.


(** X2. When the descriptors of a fetch carry pairwise distinct
    identifiers, the records of the callback carry pairwise distinct
    composite ids. *)
Theorem onSuccess_llms_distinct_ids (source : DModelSource.t Setup)
    (models : list (ModelDescription.t Other)) :
  NoDup (map ModelDescription.id models) ->
  exists llms,
    onSuccess_llms (Some source) models = Normal llms
    /\ NoDup (map DLLM.id llms).
Proof.
  intros Hnd. destruct (onSuccess_llms_pointwise source models) as [llms [E F]].
  exists llms. split; [exact E|].
  replace (map DLLM.id llms)
    with (map (fun id => DModelSource.id source ++ 45%N :: id)
              (map ModelDescription.id models)).
  - apply NoDup_map_injective; [|exact Hnd].
    intros x y H. apply app_inv_head in H. injection H as ->. reflexivity.
  - rewrite map_map. apply (Forall2_map_eq _ _ _ _ _ F).
    intros m r H. symmetry. apply (openAIModelToDLLM_id_ref m source r H).
Qed.

(** X3. Across sources whose ids hold no hyphen, the composite id tells the
    source and the raw identifier: two records with the same composite id
    come from sources with the same id and from descriptors with the same
    identifier, and agree on label, hidden flag and context window. *)
Theorem openAIModelToDLLM_id_injective
    (model1 model2 : ModelDescription.t Other) (source1 source2 : DModelSource.t Setup)
    (r1 r2 : DLLM.t Setup) :
  ~ In 45%N (DModelSource.id source1) ->
  ~ In 45%N (DModelSource.id source2) ->
  openAIModelToDLLM model1 source1 = Normal r1 ->
  openAIModelToDLLM model2 source2 = Normal r2 ->
  DLLM.id r1 = DLLM.id r2 ->
  DModelSource.id source1 = DModelSource.id source2
  /\ ModelDescription.id model1 = ModelDescription.id model2
  /\ DLLM.label r1 = DLLM.label r2
  /\ DLLM.hidden r1 = DLLM.hidden r2
  /\ DLLM.contextTokens r1 = DLLM.contextTokens r2.
Proof.
  intros H1 H2 E1 E2 Eid.
  destruct (openAIModelToDLLM_id_ref model1 source1 r1 E1) as [I1 _].
  destruct (openAIModelToDLLM_id_ref model2 source2 r2 E2) as [I2 _].
  rewrite I1, I2 in Eid. apply hyphen_split_inj in Eid as [Es Em]; [|assumption..].
  split; [exact Es|]. split; [exact Em|].
  unfold openAIModelToDLLM, openAIModelToDLLM_with in E1, E2. rewrite <- Em in E2.
  destruct (select_base knownBases (ModelDescription.id model1)); [|discriminate].
  injection E1 as <-. injection E2 as <-. repeat split.
Qed.

(** X12. Over an arbitrary table the function throws exactly when the
    table is empty: when no prefix of a non-empty table matches, the last
    entry of the table is taken as the base. *)
Theorem openAIModelToDLLM_with_throws_iff_empty (bases : list KnownBase.t)
    (model : ModelDescription.t Other) (source : DModelSource.t Setup) :
  (openAIModelToDLLM_with bases model source = Throw TypeError <-> bases = [])
  /\ ((exists r, openAIModelToDLLM_with bases model source = Normal r) <-> bases <> [])
  /\ (find_base bases (ModelDescription.id model) = None ->
      select_base bases (ModelDescription.id model)
      = nth_error bases (List.length bases - 1)).
Proof.
  assert (Hsel : bases <> [] ->
                 exists base, select_base bases (ModelDescription.id model) = Some base).
  { intros Hne. unfold select_base.
    destruct (find_base bases (ModelDescription.id model)) as [b|]; [exists b; reflexivity|].
    simpl. unfold JS.Array_get.
    destruct (Z.ltb_spec (Z.of_nat (List.length bases) - 1) 0) as [Hlt|_].
    - destruct bases; [congruence | cbn [List.length] in Hlt; lia].
    - destruct (nth_error bases (Z.to_nat (Z.of_nat (List.length bases) - 1))) as [b|] eqn:E;
        [exists b; reflexivity|].
      apply nth_error_None in E. destruct bases; [congruence | cbn [List.length] in E; lia]. }
  assert (Hret : bases <> [] -> exists r, openAIModelToDLLM_with bases model source = Normal r).
  { intros Hne. destruct (Hsel Hne) as [base Hb].
    destruct (openAIModelToDLLM_with_fields model source bases base Hb) as [r [Hr _]].
    exists r. exact Hr. }
  split; [|split].
  - split.
    + intros H. destruct bases as [|b bases]; [reflexivity|].
      destruct Hret as [r Hr]; [discriminate | rewrite Hr in H; discriminate].
    + intros ->. reflexivity.
  - split.
    + intros [r Hr] ->. discriminate Hr.
    + exact Hret.
  - intros Hnone. unfold select_base. rewrite Hnone. simpl. unfold JS.Array_get.
    destruct bases as [|b bases]; [reflexivity|].
    destruct (Z.ltb_spec (Z.of_nat (List.length (b :: bases)) - 1) 0) as [Hlt|_];
      [cbn [List.length] in Hlt; lia|].
    f_equal. cbn [List.length]. lia.
Qed.

End OnSuccess.

(* ================================================================== *)
(** ** Properties of the setup form *)

Section Form.

Context {LLM : Type}.
Variable isValidOpenAIApiKey : jsstring -> bool.
Variable hasServerKeyOpenAI : bool.
Variables (showAdvanced : bool) (oaiKey : jsstring) (sourceLLMs : list LLM).
Variables (isFetching isError : bool).

(** X8. When the key field is flagged as an error, a key was typed, the
    query is not enabled, the Models button is disabled and the usage link
    is not shown. *)
Theorem OpenAISourceSetup_key_error_blocks_fetch :
  let view := OpenAISourceSetup isValidOpenAIApiKey hasServerKeyOpenAI showAdvanced
                oaiKey sourceLLMs isFetching isError in
  View.key_isError view = true ->
  oaiKey <> []
  /\ View.query_enabled view = false
  /\ View.button_disabled view = true
  /\ View.key_check_usage view = false.
Proof.
  cbv zeta.
  unfold OpenAISourceSetup. cbn [View.key_isError View.query_enabled
    View.button_disabled View.key_check_usage].
  rewrite !negb_involutive. intros H. apply andb_true_iff in H as [Hk Hv].
  apply negb_true_iff in Hv. rewrite Hk, Hv. split; [apply truthy_true; exact Hk|].
  split; [apply andb_false_r|]. split; reflexivity.
Qed.

(** X9. The query is enabled only while the source has no models and the
    key field shows no error; the Models button is then disabled exactly
    while a fetch runs, and carries the download icon. *)
Theorem OpenAISourceSetup_query_enabled :
  let view := OpenAISourceSetup isValidOpenAIApiKey hasServerKeyOpenAI showAdvanced
                oaiKey sourceLLMs isFetching isError in
  View.query_enabled view = true ->
  sourceLLMs = []
  /\ View.key_isError view = false
  /\ View.button_disabled view = isFetching
  /\ View.button_endDecorator view = FileDownloadIcon.
Proof.
  cbv zeta.
  unfold OpenAISourceSetup. cbn [View.key_isError View.query_enabled
    View.button_disabled View.button_endDecorator].
  rewrite !negb_involutive. intros H. apply andb_true_iff in H as [Hm Hs].
  rewrite Hm, Hs.
  split; [destruct sourceLLMs; [reflexivity | discriminate]|].
  split; [|split; reflexivity].
  destruct (JS.truthy oaiKey); [rewrite Hs|]; reflexivity.
Qed.

(** X10. With an empty key field nothing depends on the key validator: no
    error is shown, no usage link, and the query and the button follow the
    server key alone. *)
Theorem OpenAISourceSetup_empty_key :
  let view := OpenAISourceSetup isValidOpenAIApiKey hasServerKeyOpenAI showAdvanced
                oaiKey sourceLLMs isFetching isError in
  oaiKey = [] ->
  View.key_isError view = false
  /\ View.key_check_usage view = false
  /\ View.key_create_links view = negb hasServerKeyOpenAI
  /\ View.query_enabled view
     = match sourceLLMs with [] => hasServerKeyOpenAI | _ :: _ => false end
  /\ View.button_disabled view = negb hasServerKeyOpenAI || isFetching.
Proof.
  cbv zeta.
  intros ->. unfold OpenAISourceSetup. cbn.
  destruct hasServerKeyOpenAI, sourceLLMs; repeat split.
Qed.

End Form.

(** X11. Once a key is typed, the server key no longer decides anything
    about fetching: the error flag, the query and the Models button are the
    same with and without a server key. *)
Theorem OpenAISourceSetup_typed_key_overrides_server_key {LLM : Type}
    (isValidOpenAIApiKey : jsstring -> bool) (showAdvanced : bool) (oaiKey : jsstring)
    (sourceLLMs : list LLM) (isFetching isError : bool) :
  oaiKey <> [] ->
  let with_server_key :=
    OpenAISourceSetup isValidOpenAIApiKey true showAdvanced oaiKey sourceLLMs
      isFetching isError in
  let without_server_key :=
    OpenAISourceSetup isValidOpenAIApiKey false showAdvanced oaiKey sourceLLMs
      isFetching isError in
  View.key_isError with_server_key = View.key_isError without_server_key
  /\ View.query_enabled with_server_key = View.query_enabled without_server_key
  /\ View.button_disabled with_server_key = View.button_disabled without_server_key
  /\ View.query_enabled with_server_key
     = match sourceLLMs with [] => isValidOpenAIApiKey oaiKey | _ :: _ => false end.
Proof.
  intros H. apply truthy_true in H. unfold OpenAISourceSetup. cbn.
  rewrite H. repeat split. destruct sourceLLMs; reflexivity.
Qed.

(* ================================================================== *)
(** ** Instances *)

(** A key validator for the instances: keys start with "sk-". *)
Definition starts_with_sk (key : jsstring) : bool := JS.startsWith key (js "sk-").

(** Two descriptors of one fetch, "gpt-4" and "gpt-4-0314". *)
Lemma onSuccess_llms_distinct_ids_gpt4 :
  NoDup [js "gpt-4"; js "gpt-4-0314"]
  /\ exists llms,
       onSuccess_llms (Some (source_of (js "openai")))
         [model_of (js "gpt-4") 1678604602; model_of (js "gpt-4-0314") 1678604601]
       = Normal llms
       /\ NoDup (map DLLM.id llms).
Proof.
  assert (H : NoDup [js "gpt-4"; js "gpt-4-0314"]).
  { constructor; [|constructor; [|constructor]].
    - intros [E|[]]. discriminate E.
    - intros []. }
  split; [exact H|].
  exact (onSuccess_llms_distinct_ids (source_of (js "openai"))
           [model_of (js "gpt-4") 1678604602; model_of (js "gpt-4-0314") 1678604601] H).
Defined.

Lemma no_hyphen_in_openai : ~ In 45%N (js "openai").
Proof.
  intros H. simpl in H.
  repeat (destruct H as [H|H]; [discriminate H|]). exact H.
Defined.

(** The same descriptor under the same source, fetched twice. *)
Lemma openAIModelToDLLM_id_injective_openai :
  exists r,
    openAIModelToDLLM (model_of (js "gpt-4") 1) (source_of (js "openai")) = Normal r
    /\ DModelSource.id (source_of (js "openai")) = DModelSource.id (source_of (js "openai"))
    /\ ModelDescription.id (model_of (js "gpt-4") 1)
       = ModelDescription.id (model_of (js "gpt-4") 2).
Proof.
  eexists. split; [reflexivity|].
  destruct (openAIModelToDLLM_id_injective
              (model_of (js "gpt-4") 1) (model_of (js "gpt-4") 2)
              (source_of (js "openai")) (source_of (js "openai")) _ _
              no_hyphen_in_openai no_hyphen_in_openai eq_refl eq_refl eq_refl)
    as [Hs [Hm _]].
  split; [exact Hs | exact Hm].
Defined.

(** "gpt-4" followed by a space and a line feed. *)
Lemma openAIModelToDLLM_trailing_white_space_gpt4 :
  forallb JS.isWhiteSpace [32%N; 10%N] = true
  /\ exists r r',
       openAIModelToDLLM (model_of (js "gpt-4") 0) (source_of (js "openai")) = Normal r
       /\ openAIModelToDLLM (model_of (js "gpt-4" ++ [32%N; 10%N]) 0)
            (source_of (js "openai")) = Normal r'
       /\ DLLM.label r' = DLLM.label r
       /\ DLLM.hidden r' = DLLM.hidden r.
Proof.
  split; [reflexivity|].
  destruct (openAIModelToDLLM_trailing_white_space (model_of (js "gpt-4") 0)
              (source_of (js "openai")) [32%N; 10%N] eq_refl)
    as [r [r' [H [H' [Hl [Hh _]]]]]].
  exists r, r'. repeat split; assumption.
Defined.

(** A typed key that the validator refuses. *)
Lemma OpenAISourceSetup_key_error_blocks_fetch_bad_key :
  View.key_isError
    (OpenAISourceSetup starts_with_sk true false (js "abc") (@nil unit) false false) = true
  /\ View.query_enabled
       (OpenAISourceSetup starts_with_sk true false (js "abc") (@nil unit) false false) = false
  /\ View.button_disabled
       (OpenAISourceSetup starts_with_sk true false (js "abc") (@nil unit) false false) = true.
Proof.
  split; [reflexivity|].
  destruct (OpenAISourceSetup_key_error_blocks_fetch starts_with_sk true false (js "abc")
              (@nil unit) false false eq_refl) as [_ [Hq [Hb _]]].
  split; [exact Hq | exact Hb].
Defined.

(** A valid typed key, no models yet, a fetch running. *)
Lemma OpenAISourceSetup_query_enabled_first_fetch :
  View.query_enabled
    (OpenAISourceSetup starts_with_sk false false (js "sk-abc") (@nil unit) true false) = true
  /\ View.button_disabled
       (OpenAISourceSetup starts_with_sk false false (js "sk-abc") (@nil unit) true false)
     = true.
Proof.
  split; [reflexivity|].
  destruct (OpenAISourceSetup_query_enabled starts_with_sk false false (js "sk-abc")
              (@nil unit) true false eq_refl) as [_ [_ [Hb _]]].
  exact Hb.
Defined.

(** No typed key, a server key, no models. *)
Lemma OpenAISourceSetup_empty_key_server_key :
  View.key_isError
    (OpenAISourceSetup starts_with_sk true false (js "") (@nil unit) false false) = false
  /\ View.query_enabled
       (OpenAISourceSetup starts_with_sk true false (js "") (@nil unit) false false) = true.
Proof.
  destruct (OpenAISourceSetup_empty_key starts_with_sk true false (js "") (@nil unit)
              false false eq_refl) as [He [_ [_ [Hq _]]]].
  split; [exact He | exact Hq].
Defined.

Lemma sk_abc_not_empty : js "sk-abc" <> [].
Proof. discriminate. Defined.

(** A valid typed key, with and without a server key. *)
Lemma OpenAISourceSetup_typed_key_sk_abc :
  View.query_enabled
    (OpenAISourceSetup starts_with_sk true false (js "sk-abc") (@nil unit) false false)
  = View.query_enabled
      (OpenAISourceSetup starts_with_sk false false (js "sk-abc") (@nil unit) false false).
Proof.
  destruct (OpenAISourceSetup_typed_key_overrides_server_key starts_with_sk false
              (js "sk-abc") (@nil unit) false false sk_abc_not_empty) as [_ [Hq _]].
  exact Hq.
Defined.
